(** * stock-backtest-fundamental: the processor module

    A shallow embedding of [src/app/processor.py]: the schema gate
    [validate_input_message] and the scorer [compute_fundamental_signal],
    over Python dictionaries (finite maps with string keys), IEEE-754
    binary64 numbers (the Standard Library's [spec_float] at precision 53)
    and a logger modelled as an append-only list of records. *)

From Stdlib Require Import ZArith QArith Qabs Qpower Bool Ascii Lia.
From Stdlib Require Import SpecFloat.
From stdpp Require Import gmap strings list fin_maps.

Set Warnings "-register-all".
Local Open Scope Z_scope.

(** ** Python floats: IEEE-754 binary64 *)

Module Float.

Definition prec : Z := 53.
Definition emax : Z := 1024.

Definition add : spec_float → spec_float → spec_float := SFadd prec emax.
Definition sub : spec_float → spec_float → spec_float := SFsub prec emax.

(** [gt x y] is Python's [x > y] on floats: false when either side is
    a NaN. *)
Definition gt (x y : spec_float) : bool := SFltb y x.

(** The double nearest to the fraction [n / d] (ties to the even
    mantissa), with sign [s]; [0 <= n] and [0 < d]. *)
Definition of_ratio (s : bool) (n d : Z) : spec_float :=
  let '(q, e, l) := SFdiv_core_binary prec emax n 0 d 0 in
  binary_round_aux prec emax s q e l.

(** The double nearest to the decimal [m * 10 ^ e] with sign [s];
    [0 <= m]. *)
Definition of_decimal (s : bool) (m e : Z) : spec_float :=
  match e with
  | Zneg p => of_ratio s m (10 ^ Zpos p)
  | _ => of_ratio s (m * 10 ^ e) 1
  end.

(** A decimal literal of the source text, [m * 10 ^ e], read as the
    nearest double: [2.0] is [lit 20 (-1)]. *)
Definition lit (m e : Z) : spec_float := of_decimal (m <? 0) (Z.abs m) e.

(** [int.__float__]: the nearest double, [None] (an OverflowError) when
    it is out of the finite range. *)
Definition of_int (z : Z) : option spec_float :=
  match binary_normalize prec emax z 0 false with
  | S754_infinity _ => None
  | f => Some f
  end.

(** Integer division of [n] by [d > 0] to the nearest integer, ties to
    the even one. *)
Definition div_half_even (n d : Z) : Z :=
  let q := n / d in
  match 2 * (n mod d) ?= d with
  | Lt => q
  | Gt => q + 1
  | Eq => if Z.even q then q else q + 1
  end.

(** The decimal digits [round] keeps: the integer nearest to
    [m * 2 ^ e * 10 ^ ndigits]. *)
Definition scaled (m : positive) (e ndigits : Z) : Z :=
  div_half_even (Zpos m * 10 ^ ndigits * 2 ^ Z.max e 0) (2 ^ Z.max (- e) 0).

(** The builtin [round(x, ndigits)] on a float, for [0 <= ndigits]:
    the exact binary value is rounded to [ndigits] decimal places, and
    the decimal result is read back as the nearest double.  NaNs,
    infinities and zeros round to themselves. *)
Definition round (x : spec_float) (ndigits : Z) : spec_float :=
  match x with
  | S754_finite s m e => of_ratio s (scaled m e ndigits) (10 ^ ndigits)
  | _ => x
  end.

(** The representable doubles: the mantissa is canonical for the
    exponent and the exponent is in range. *)
Definition valid (x : spec_float) : bool := valid_binary prec emax x.

(** The exact rational value of a finite double. *)
Definition to_Q (x : spec_float) : Q :=
  match x with
  | S754_finite s m e =>
      let v := inject_Z (Zpos m) * (2 # 1) ^ e in
      if s then - v else v
  | _ => 0
  end%Q.

End Float.

(** ** Python values and records *)

Inductive value : Type :=
| VNone
| VBool (b : bool)
| VInt (z : Z)
| VFloat (f : spec_float)
| VStr (s : string)
| VList (l : list value)
| VDict (d : gmap string value).

Inductive exn : Type :=
| ValueError (msg : string)
| TypeError (msg : string)
| OverflowError (msg : string).

Inductive log_level : Type := DEBUG | INFO | ERROR.

Record log_record : Type := LogRecord {
  levelname : log_level;
  msg : string;
  args : list value
}.

(** ** Exceptions and the logger

    A computation runs against the records the module-level [logger] has
    received so far, appends its own, and ends in an exception or in a
    value. *)

Definition M (A : Type) : Type :=
  list log_record → list log_record * (exn + A).

#[global] Instance M_ret : MRet M := λ A a l, (l, inr a).

#[global] Instance M_bind : MBind M := λ A B k c l,
  match c l with
  | (l', inl e) => (l', inl e)
  | (l', inr a) => k a l'
  end.

Definition raise {A : Type} (e : exn) : M A := λ l, (l, inl e).

(** A builtin that raises or returns without touching the logger. *)
Definition lift {A : Type} (r : exn + A) : M A := λ l, (l, r).

Definition logger (lvl : log_level) (fmt : string) (arguments : list value)
  : M unit :=
  λ l, (l ++ [LogRecord lvl fmt arguments], inr tt).

(** [d.get(key, default)] *)
Definition dict_get (d : gmap string value) (key : string) (default : value)
  : value :=
  match d !! key with
  | Some v => v
  | None => default
  end.

(** ** Numerals

    A reading of ASCII numerals, one instance of the string conversion
    [float] relies on: blanks around an optional sign followed by [inf],
    [infinity], [nan], or digits with an optional fraction and an
    optional exponent.  Digits and blanks outside ASCII are not read. *)

Module Numeral.

Definition code (c : ascii) : Z := Z.of_N (N_of_ascii c).

Definition is_space (c : ascii) : bool :=
  (code c =? 32) || ((9 <=? code c) && (code c <=? 13))
  || ((28 <=? code c) && (code c <=? 31)).

Definition digit (c : ascii) : option Z :=
  if (48 <=? code c) && (code c <=? 57) then Some (code c - 48) else None.

Definition lower (c : ascii) : ascii :=
  if (65 <=? code c) && (code c <=? 90)
  then ascii_of_N (Z.to_N (code c + 32)) else c.

Fixpoint drop_spaces (cs : list ascii) : list ascii :=
  match cs with
  | c :: cs' => if is_space c then drop_spaces cs' else cs
  | [] => []
  end.

Definition strip (cs : list ascii) : list ascii :=
  rev (drop_spaces (rev (drop_spaces cs))).

Definition starts_with_digit (cs : list ascii) : bool :=
  match cs with
  | c :: _ => match digit c with Some _ => true | None => false end
  | [] => false
  end.

(** Reads a run of digits, in which one underscore may stand between two
    digits: the value so far, the number of digits read and the rest. *)
Fixpoint digits (cs : list ascii) (acc count : Z) : Z * Z * list ascii :=
  match cs with
  | c :: cs' =>
      match digit c with
      | Some d => digits cs' (10 * acc + d) (count + 1)
      | None =>
          if Ascii.eqb c "_" && (0 <? count) && starts_with_digit cs'
          then digits cs' acc count
          else (acc, count, cs)
      end
  | [] => (acc, count, [])
  end.

Definition sign (cs : list ascii) : bool * list ascii :=
  match cs with
  | "-"%char :: cs' => (true, cs')
  | "+"%char :: cs' => (false, cs')
  | _ => (false, cs)
  end.

Definition exponent (cs : list ascii) : option Z :=
  match cs with
  | [] => Some 0
  | c :: cs' =>
      if Ascii.eqb (lower c) "e" then
        let '(neg, cs'') := sign cs' in
        match digits cs'' 0 0 with
        | (v, n, []) => if n =? 0 then None else Some (if neg then - v else v)
        | _ => None
        end
      else None
  end.

Definition str_to_float (s : string) : option spec_float :=
  let '(neg, cs) := sign (strip (String.list_ascii_of_string s)) in
  let word := String.string_of_list_ascii (map lower cs) in
  if String.eqb word "inf" || String.eqb word "infinity" then
    Some (S754_infinity neg)
  else if String.eqb word "nan" then Some S754_nan
  else
    let '(ip, ni, cs1) := digits cs 0 0 in
    let '(fp, nf, cs2) :=
      match cs1 with
      | "."%char :: cs1' => digits cs1' ip 0
      | _ => (ip, 0, cs1)
      end in
    if ni + nf =? 0 then None
    else
      match exponent cs2 with
      | Some e => Some (Float.of_decimal neg fp (e - nf))
      | None => None
      end.

End Numeral.

(** ** Texts of the exceptions *)

(** [type(x).__name__] *)
Definition type_name (x : value) : string :=
  match x with
  | VNone => "NoneType"
  | VBool _ => "bool"
  | VInt _ => "int"
  | VFloat _ => "float"
  | VStr _ => "str"
  | VList _ => "list"
  | VDict _ => "dict"
  end.

Definition hex_digit (n : Z) : ascii :=
  ascii_of_N (Z.to_N (if n <? 10 then 48 + n else 87 + n)).

(** One character of [repr(s)] inside the quotes [quote]: the quote and
    the backslash are escaped, control characters are written [\t], [\n],
    [\r] or [\xhh], text outside ASCII is kept as it is. *)
Definition repr_char (quote c : ascii) : string :=
  let n := Numeral.code c in
  if Ascii.eqb c quote || Ascii.eqb c "\" then String "\" (String c EmptyString)
  else if n =? 9 then "\t"
  else if n =? 10 then "\n"
  else if n =? 13 then "\r"
  else if (n <? 32) || (n =? 127) then
    String "\" (String "x" (String (hex_digit (n / 16))
                              (String (hex_digit (n mod 16)) EmptyString)))
  else String c EmptyString.

Fixpoint repr_chars (quote : ascii) (s : string) : string :=
  match s with
  | EmptyString => EmptyString
  | String c s' => repr_char quote c +:+ repr_chars quote s'
  end.

Fixpoint contains (c : ascii) (s : string) : bool :=
  match s with
  | EmptyString => false
  | String c' s' => Ascii.eqb c c' || contains c s'
  end.

(** [repr(s)] of a string: in single quotes, or in double quotes when
    the text has a single quote and no double quote. *)
Definition py_repr (s : string) : string :=
  let quote :=
    if contains "'" s && negb (contains "034" s) then "034"%char
    else "'"%char in
  String quote (repr_chars quote s +:+ String quote EmptyString).

(** ** Example records *)

(** A schema that asks for a string under [symbol]: one instance of the
    external predicate. *)
Definition has_symbol (message : gmap string value) : bool :=
  match message !! "symbol" with
  | Some (VStr _) => true
  | _ => false
  end.

Definition acme : gmap string value :=
  <["debt_to_equity" := VFloat (Float.lit 2 (-1))]>
    (<["revenue_growth" := VFloat (Float.lit 1 (-1))]>
       (<["eps" := VFloat (Float.lit 30 (-1))]>
          (<["symbol" := VStr "ACME"]> ∅))).

Definition acme_enriched : gmap string value :=
  <["fundamental_signal" := VStr "BUY"]>
    (<["fundamental_score" := VFloat (Float.lit 29 (-1))]> acme).

Definition stale : gmap string value := <["eps" := VInt 0]> acme_enriched.

Definition stale_rescored : gmap string value :=
  <["fundamental_signal" := VStr "HOLD"]>
    (<["fundamental_score" := VFloat (Float.lit (-1) (-1))]> stale).

Definition at_threshold : gmap string value :=
  <["debt_to_equity" := VFloat (Float.lit (-15) (-1))]>
    (<["revenue_growth" := VInt 0]>
       (<["eps" := VInt 0]> (<["symbol" := VStr "EDGE"]> ∅))).

Definition above_threshold : gmap string value :=
  <["debt_to_equity" := VInt 0]>
    (<["revenue_growth" := VInt 0]>
       (<["eps" := VFloat (Float.lit 150004 (-5))]>
          (<["symbol" := VStr "NEAR"]> ∅))).

Definition five_decimals : gmap string value :=
  <["debt_to_equity" := VInt 0]>
    (<["revenue_growth" := VInt 0]>
       (<["eps" := VStr "1.23456"]> (<["symbol" := VStr "FINE"]> ∅))).

Definition bare : gmap string value := <["symbol" := VStr "BARE"]> ∅.

Definition anonymous : gmap string value := delete "symbol" acme.

Definition not_a_number : gmap string value :=
  <["eps" := VStr "n/a"]> (<["symbol" := VStr "BAD"]> ∅).

Definition acme_as_text : gmap string value :=
  <["debt_to_equity" := VStr "0.2"]>
    (<["revenue_growth" := VStr " 1e-1 "]>
       (<["eps" := VInt 3]> (<["symbol" := VStr "ACME"]> ∅))).

Definition eps_not_reported : gmap string value :=
  <["eps" := VStr "nan"]> (<["symbol" := VStr "VOID"]> ∅).

Definition two_bad_fields : gmap string value :=
  <["debt_to_equity" := VNone]>
    (<["eps" := VStr "n/a"]> (<["symbol" := VStr "BAD"]> ∅)).

Definition loss_making : gmap string value :=
  <["debt_to_equity" := VFloat (Float.lit 25 (-1))]>
    (<["eps" := VInt (-1)]> (<["symbol" := VStr "LOSS"]> ∅)).

Section Processor.

(** [app.utils.validate_data.validate_message_schema], imported by the
    module: a predicate on raw messages. *)
Variable validate_message_schema : gmap string value → bool.

(** The interpreter's reading of a string as a float ([None] when the
    text is not a number). *)
Variable str_to_float : string → option spec_float.

(** The builtin [float(x)]: floats are kept, integers and booleans are
    converted, strings are parsed, anything else is a TypeError. *)
Definition py_float (x : value) : exn + spec_float :=
  match x with
  | VFloat f => inr f
  | VInt z =>
      match Float.of_int z with
      | Some f => inr f
      | None => inl (OverflowError "int too large to convert to float")
      end
  | VBool b =>
      match Float.of_int (if b then 1 else 0) with
      | Some f => inr f
      | None => inl (OverflowError "int too large to convert to float")
      end
  | VStr s =>
      match str_to_float s with
      | Some f => inr f
      | None =>
          inl (ValueError ("could not convert string to float: " +:+ py_repr s))
      end
  | VNone | VList _ | VDict _ =>
      inl (TypeError
             ("float() argument must be a string or a real number, not '"
              +:+ type_name x +:+ "'"))
  end.

Definition validate_input_message (message : gmap string value)
  : M (gmap string value) :=
  logger DEBUG "🔍 Validating message schema..." [];;
  if negb (validate_message_schema message) then
    logger ERROR "❌ Invalid message schema: %s" [VDict message];;
    raise (ValueError "Invalid message format")
  else
    mret message.

Definition compute_fundamental_signal (message : gmap string value)
  : M (gmap string value) :=
  let symbol := dict_get message "symbol" (VStr "UNKNOWN") in
  eps ← lift (py_float (dict_get message "eps" (VFloat (Float.lit 20 (-1)))));
  revenue_growth ←
    lift (py_float
            (dict_get message "revenue_growth" (VFloat (Float.lit 5 (-2)))));
  debt_to_equity ←
    lift (py_float
            (dict_get message "debt_to_equity" (VFloat (Float.lit 4 (-1)))));
  logger INFO "📘 Computing fundamental signal for %s" [symbol];;
  let score := Float.sub (Float.add eps revenue_growth) debt_to_equity in
  let signal :=
    if Float.gt score (Float.lit 15 (-1)) then "BUY" else "HOLD" in
  let result : gmap string value :=
    <["fundamental_signal" := VStr signal]>
      (<["fundamental_score" := VFloat (Float.round score 4)]> ∅) in
  logger DEBUG "📈 Fundamental result for %s: %s" [symbol; VDict result];;
  mret (result ∪ message).

(** *** The contract in the specification's words *)

(** A numeric field: taken from the record and coerced when the key is
    present, the stated default otherwise. *)
Definition field_or_default (message : gmap string value) (key : string)
  (default : spec_float) : exn + spec_float :=
  match message !! key with
  | Some v => py_float v
  | None => inr default
  end.

(** The two produced fields for a given score. *)
Definition produced (score : spec_float) : gmap string value :=
  <["fundamental_signal" :=
      VStr (if Float.gt score (Float.lit 15 (-1)) then "BUY" else "HOLD")]>
    (<["fundamental_score" := VFloat (Float.round score 4)]> ∅).

(** Error kind invalid-input: what the validator raises. *)
Definition invalid_input (e : exn) : Prop :=
  e = ValueError "Invalid message format".

(** Error kind invalid-numeric-field: an exception of the coercion
    [float(v)] of some value [v]. *)
Definition invalid_numeric_field (e : exn) : Prop :=
  ∃ v : value, py_float v = inl e.

(** The three numeric keys the scorer reads. *)
Definition numeric_keys : list string :=
  ["eps"; "revenue_growth"; "debt_to_equity"].

(** [q] is the integer nearest to [x * 10 ^ ndigits], the even one of
    the two when [x * 10 ^ ndigits] is half-way between them. *)
Definition rounds_half_even (x : Q) (ndigits : Z) (q : Z) : Prop :=
  (Qabs (x * (10 # 1) ^ ndigits - inject_Z q) <= 1 # 2)%Q ∧
  ((Qabs (x * (10 # 1) ^ ndigits - inject_Z q) == 1 # 2)%Q → Z.even q = true).

(** [r] is [x] rounded to [ndigits] decimal places, half to even: the
    double nearest to [q / 10 ^ ndigits] for the integer [q] that
    [rounds_half_even] singles out; a NaN, an infinity or a zero is kept. *)
Definition rounded_to_decimals (x : spec_float) (ndigits : Z)
  (r : spec_float) : Prop :=
  match x with
  | S754_finite s _ _ =>
      ∃ q : Z, rounds_half_even (Float.to_Q x) ndigits q
               ∧ r = Float.of_ratio s (Z.abs q) (10 ^ ndigits)
  | _ => r = x
  end.

(** A JSON number as the scorer takes it without a failure: a float, a
    boolean, or an integer within the range of the doubles. *)
Definition is_number (v : value) : bool :=
  match v with
  | VFloat _ | VBool _ => true
  | VInt z => match Float.of_int z with Some _ => true | None => false end
  | _ => false
  end.

(** *** Facts on rounding *)

Lemma div_half_even_spec (n d : Z) :
  0 < d →
  Z.abs (2 * n - 2 * Float.div_half_even n d * d) <= d ∧
  (Z.abs (2 * n - 2 * Float.div_half_even n d * d) = d →
   Z.even (Float.div_half_even n d) = true).
Proof.
  intros Hd. unfold Float.div_half_even.
  pose proof (Z.div_mod n d ltac:(lia)) as Hn.
  pose proof (Z.mod_pos_bound n d Hd) as Hr.
  destruct (Z.compare_spec (2 * (n mod d)) d) as [Heq | Hlt | Hgt].
  - destruct (Z.even (n / d)) eqn:Hev.
    + split; [lia | auto].
    + split; [lia |]. intros _.
      rewrite Z.even_add, Hev. reflexivity.
  - split; lia.
  - split; lia.
Qed.

Lemma div_half_even_nonneg (n d : Z) :
  0 <= n → 0 < d → 0 <= Float.div_half_even n d.
Proof.
  intros Hn Hd. unfold Float.div_half_even.
  pose proof (Z.div_pos n d Hn Hd).
  destruct (2 * (n mod d) ?= d); [destruct (Z.even (n / d)) | |]; lia.
Qed.

Lemma scaled_nonneg (m : positive) (e ndigits : Z) :
  0 <= Float.scaled m e ndigits.
Proof.
  unfold Float.scaled. apply div_half_even_nonneg.
  - pose proof (Z.pow_nonneg 10 ndigits). pose proof (Z.pow_nonneg 2 (Z.max e 0)).
    nia.
  - apply Z.pow_pos_nonneg; lia.
Qed.

Lemma pow2_Q (e : Z) :
  ((2 # 1) ^ e == inject_Z (2 ^ Z.max e 0) / inject_Z (2 ^ Z.max (- e) 0))%Q.
Proof.
  destruct (Z.le_gt_cases 0 e) as [H | H].
  - rewrite Z.max_l, Z.max_r by lia. change (2 ^ 0) with 1.
    rewrite Zpower_Qpower by lia. change (inject_Z 2) with (2 # 1)%Q.
    unfold Qdiv. change (/ inject_Z 1)%Q with 1%Q. ring.
  - rewrite Z.max_r, Z.max_l by lia. change (2 ^ 0) with 1.
    rewrite Zpower_Qpower by lia. change (inject_Z 2) with (2 # 1)%Q.
    replace e with (- - e) at 1 by lia.
    rewrite Qpower_opp. unfold Qdiv. change (inject_Z 1) with 1%Q. ring.
Qed.

Lemma frac_minus_int (n q d : Z) :
  0 < d →
  (inject_Z n / inject_Z d - inject_Z q == (n - q * d) # Z.to_pos d)%Q.
Proof.
  intros Hd.
  unfold Qeq, Qdiv, Qminus, Qplus, Qmult, Qinv, Qopp, inject_Z.
  destruct d; try lia. simpl. lia.
Qed.

Lemma Qabs_frac_half_le (n q d : Z) :
  0 < d →
  (Qabs (inject_Z n / inject_Z d - inject_Z q) <= 1 # 2)%Q
  ↔ Z.abs (2 * n - 2 * q * d) <= d.
Proof.
  intros Hd. rewrite (frac_minus_int n q d Hd).
  unfold Qabs, Qle. cbn [Qnum Qden]. rewrite Z2Pos.id by lia. lia.
Qed.

Lemma Qabs_frac_half_eq (n q d : Z) :
  0 < d →
  (Qabs (inject_Z n / inject_Z d - inject_Z q) == 1 # 2)%Q
  ↔ Z.abs (2 * n - 2 * q * d) = d.
Proof.
  intros Hd. rewrite (frac_minus_int n q d Hd).
  unfold Qabs, Qeq. cbn [Qnum Qden]. rewrite Z2Pos.id by lia. lia.
Qed.

Lemma scaled_value_frac (m : positive) (e nd : Z) :
  0 <= nd →
  (inject_Z (Zpos m) * (2 # 1) ^ e * (10 # 1) ^ nd ==
   inject_Z (Zpos m * 10 ^ nd * 2 ^ Z.max e 0)
   / inject_Z (2 ^ Z.max (- e) 0))%Q.
Proof.
  intros Hnd. rewrite pow2_Q, !inject_Z_mult, (Zpower_Qpower 10 nd) by lia.
  change (inject_Z 10) with (10 # 1)%Q.
  assert (Hd : ¬ (inject_Z (2 ^ Z.max (- e) 0) == 0)%Q).
  { change 0%Q with (inject_Z 0). rewrite inject_Z_injective.
    pose proof (Z.pow_pos_nonneg 2 (Z.max (- e) 0)). lia. }
  field. exact Hd.
Qed.

Lemma scaled_rounds_half_even (s : bool) (m : positive) (e nd : Z) :
  0 <= nd →
  rounds_half_even (Float.to_Q (S754_finite s m e)) nd
    (if s then - Float.scaled m e nd else Float.scaled m e nd).
Proof.
  intros Hnd. unfold rounds_half_even, Float.to_Q, Float.scaled.
  set (N := Zpos m * 10 ^ nd * 2 ^ Z.max e 0).
  set (D := 2 ^ Z.max (- e) 0).
  assert (HD : 0 < D) by (apply Z.pow_pos_nonneg; lia).
  pose proof (scaled_value_frac m e nd Hnd) as E. fold N D in E.
  destruct (div_half_even_spec N D HD) as [Hle Htie].
  destruct s.
  - assert (E' : (- (inject_Z (Zpos m) * (2 # 1) ^ e) * (10 # 1) ^ nd
                  - inject_Z (- Float.div_half_even N D)
                  == - (inject_Z N / inject_Z D
                        - inject_Z (Float.div_half_even N D)))%Q).
    { rewrite <- E, inject_Z_opp. ring. }
    rewrite E', Qabs_opp, Z.even_opp.
    split; [apply Qabs_frac_half_le | rewrite Qabs_frac_half_eq]; assumption.
  - rewrite E.
    split; [apply Qabs_frac_half_le | rewrite Qabs_frac_half_eq]; assumption.
Qed.

Lemma Qabs_minus_int_le (y : Q) (q : Z) :
  (Qabs (y - inject_Z q) <= 1 # 2)%Q ↔
  Z.abs (2 * (Qnum y - q * Zpos (Qden y))) <= Zpos (Qden y).
Proof.
  destruct y as [a b]. unfold Qabs, Qle, Qminus, Qplus, Qopp, inject_Z.
  cbn [Qnum Qden]. lia.
Qed.

Lemma Qabs_minus_int_eq (y : Q) (q : Z) :
  (Qabs (y - inject_Z q) == 1 # 2)%Q ↔
  Z.abs (2 * (Qnum y - q * Zpos (Qden y))) = Zpos (Qden y).
Proof.
  destruct y as [a b]. unfold Qabs, Qeq, Qminus, Qplus, Qopp, inject_Z.
  cbn [Qnum Qden]. lia.
Qed.

(** The relation names one integer: rounding half to even is a function. *)
Lemma rounds_half_even_unique (x : Q) (ndigits q1 q2 : Z) :
  rounds_half_even x ndigits q1 → rounds_half_even x ndigits q2 → q1 = q2.
Proof.
  unfold rounds_half_even.
  rewrite !Qabs_minus_int_le, !Qabs_minus_int_eq.
  set (a := Qnum (x * (10 # 1) ^ ndigits)).
  set (b := Zpos (Qden (x * (10 # 1) ^ ndigits))).
  assert (Hb : 0 < b) by (unfold b; lia).
  intros [L1 T1] [L2 T2].
  destruct (Z.eq_dec q1 q2) as [|Hne]; [assumption | exfalso].
  assert (Hd : q1 = q2 + 1 ∨ q2 = q1 + 1) by nia.
  assert (E1 : Z.even q1 = true) by (apply T1; nia).
  assert (E2 : Z.even q2 = true) by (apply T2; nia).
  destruct Hd as [-> | ->]; rewrite Z.even_add in *.
  - rewrite E2 in E1. discriminate.
  - rewrite E1 in E2. discriminate.
Qed.

Lemma round_rounded_to_decimals (x : spec_float) (ndigits : Z) :
  0 <= ndigits → rounded_to_decimals x ndigits (Float.round x ndigits).
Proof.
  intros Hnd. destruct x as [s | s | | s m e]; try reflexivity.
  cbn [rounded_to_decimals Float.round].
  exists (if s then - Float.scaled m e ndigits else Float.scaled m e ndigits).
  split; [apply scaled_rounds_half_even; assumption |].
  pose proof (scaled_nonneg m e ndigits).
  destruct s; f_equal; lia.
Qed.

(** *** Facts on the comparison with the threshold *)

Lemma digits2_pos_bounds (m : positive) :
  2 ^ (Zpos (digits2_pos m) - 1) <= Zpos m < 2 ^ Zpos (digits2_pos m).
Proof.
  induction m as [p IH | p IH |]; cbn [digits2_pos].
  - rewrite Pos2Z.inj_succ.
    replace (Z.succ (Zpos (digits2_pos p)) - 1)
      with (Z.succ (Zpos (digits2_pos p) - 1)) by lia.
    rewrite !Z.pow_succ_r by lia. lia.
  - rewrite Pos2Z.inj_succ.
    replace (Z.succ (Zpos (digits2_pos p)) - 1)
      with (Z.succ (Zpos (digits2_pos p) - 1)) by lia.
    rewrite !Z.pow_succ_r by lia. lia.
  - simpl. lia.
Qed.

Lemma Qlt_frac (a b n d : Z) :
  0 < b → 0 < d →
  (inject_Z a / inject_Z b < inject_Z n / inject_Z d)%Q ↔ a * d < n * b.
Proof.
  intros Hb Hd.
  unfold Qlt, Qdiv, Qmult, Qinv, inject_Z.
  destruct b; try lia. destruct d; try lia. simpl. lia.
Qed.

Lemma gt_threshold_exact (s : bool) (m : positive) (e : Z) :
  Float.valid (S754_finite s m e) = true →
  Float.gt (S754_finite s m e) (Float.lit 15 (-1)) = true
  ↔ (3 # 2 < Float.to_Q (S754_finite s m e))%Q.
Proof.
  intros Hv.
  assert (T : Float.lit 15 (-1) = S754_finite false 6755399441055744 (-52))
    by (vm_compute; reflexivity).
  rewrite T. clear T.
  unfold Float.valid, valid_binary, bounded, canonical_mantissa, fexp,
    SpecFloat.emin in Hv.
  apply andb_prop in Hv. destruct Hv as [Hc _].
  apply Z.eqb_eq in Hc.
  change Float.prec with 53 in Hc. change Float.emax with 1024 in Hc.
  pose proof (digits2_pos_bounds m) as Hm.
  set (d := Zpos (digits2_pos m)) in *.
  assert (Hd : 0 < d) by (unfold d; lia).
  unfold Float.to_Q. cbv zeta.
  assert (Hpos : (0 < inject_Z (Zpos m) * (2 # 1) ^ e)%Q).
  { apply Qmult_lt_0_compat; [reflexivity | apply Qpower_0_lt; reflexivity]. }
  destruct s.
  - split; [discriminate |]. intros H. exfalso.
    apply (Qlt_irrefl 0).
    apply Qlt_trans with (3 # 2)%Q; [reflexivity |].
    apply Qlt_trans with (- (inject_Z (Z.pos m) * (2 # 1) ^ e))%Q; [exact H |].
    rewrite <- (Qopp_involutive 0). apply Qopp_lt_compat. exact Hpos.
  - rewrite pow2_Q.
    set (A := 2 ^ Z.max e 0). set (B := 2 ^ Z.max (- e) 0).
    assert (HB : 0 < B) by (apply Z.pow_pos_nonneg; lia).
    assert (HA : 0 < A) by (apply Z.pow_pos_nonneg; lia).
    assert (E : (inject_Z (Zpos m) * (inject_Z A / inject_Z B)
                 == inject_Z (Zpos m * A) / inject_Z B)%Q).
    { rewrite inject_Z_mult. unfold Qdiv. ring. }
    rewrite E. change (3 # 2)%Q with (inject_Z 3 / inject_Z 2)%Q.
    rewrite Qlt_frac by lia.
    unfold Float.gt, SFltb, SFcompare.
    destruct (Z.compare_spec (-52) e) as [He | He | He].
    + subst e.
      assert (HA1 : A = 1) by reflexivity.
      assert (HB1 : B = 4503599627370496) by (vm_compute; reflexivity).
      rewrite HA1, HB1.
      change (Pos.compare_cont Eq 6755399441055744 m)
        with (Pos.compare 6755399441055744 m).
      destruct (Pos.compare_spec 6755399441055744 m) as [Hm' | Hm' | Hm'].
      * subst m. split; [discriminate | intros HH; exfalso; revert HH; clear].
        apply Z.lt_irrefl.
      * apply Pos2Z.pos_lt_pos in Hm'.
        split; [intros _; clear - Hm'; lia | reflexivity].
      * apply Pos2Z.pos_lt_pos in Hm'.
        split; [discriminate | intros HH; exfalso; clear - HH Hm'; lia].
    + split; [intros _ | reflexivity].
      assert (d = 53) by lia.
      replace (d - 1) with 52 in Hm by lia.
      assert (P52 : 2 ^ 52 = 4503599627370496) by (vm_compute; reflexivity).
      rewrite P52 in Hm.
      destruct (Z.le_gt_cases 0 e) as [H0 | H0].
      * unfold B. rewrite (Z.max_r (- e) 0) by lia. change (2 ^ 0) with 1. nia.
      * unfold A, B. rewrite (Z.max_r e 0), (Z.max_l (- e) 0) by lia.
        change (2 ^ 0) with 1.
        assert (2 ^ (- e) <= 2 ^ 51) by (apply Z.pow_le_mono_r; lia).
        assert (P51 : 2 ^ 51 = 2251799813685248) by (vm_compute; reflexivity).
        rewrite P51 in *. lia.
    + split; [discriminate | intros H; exfalso].
      assert (Hd53 : d <= 53) by lia.
      assert (Zpos m < 2 ^ 53).
      { apply Z.lt_le_trans with (2 ^ d); [lia | apply Z.pow_le_mono_r; lia]. }
      assert (P53 : 2 ^ 53 = 9007199254740992) by (vm_compute; reflexivity).
      rewrite P53 in *.
      unfold A, B in H. rewrite (Z.max_r e 0), (Z.max_l (- e) 0) in H by lia.
      change (2 ^ 0) with 1 in H.
      assert (2 ^ 53 <= 2 ^ (- e)) by (apply Z.pow_le_mono_r; lia).
      rewrite P53 in *. lia.
Qed.

(** The literals of the source as doubles, and [round] on two ties. *)
Example literals_as_doubles :
  Float.lit 20 (-1) = S754_finite false 4503599627370496 (-51) ∧
  Float.lit 5 (-2) = S754_finite false 7205759403792794 (-57) ∧
  Float.lit 4 (-1) = S754_finite false 7205759403792794 (-54) ∧
  Float.lit 15 (-1) = S754_finite false 6755399441055744 (-52).
Proof. repeat split; vm_compute; reflexivity. Qed.

Example round_ties_to_even :
  Float.round (Float.lit 3125 (-5)) 4 = Float.lit 312 (-4) ∧
  Float.round (Float.lit 9375 (-5)) 4 = Float.lit 938 (-4) ∧
  Float.round (Float.lit (-3125) (-5)) 4 = Float.lit (-312) (-4).
Proof. repeat split; vm_compute; reflexivity. Qed.

(** *** Running the two functions *)

Lemma py_float_dict_get (message : gmap string value) key default :
  py_float (dict_get message key (VFloat default))
  = field_or_default message key default.
Proof.
  unfold dict_get, field_or_default. destruct (message !! key); reflexivity.
Qed.

Lemma validate_input_message_run (message : gmap string value) l :
  validate_input_message message l =
    if validate_message_schema message then
      (l ++ [LogRecord DEBUG "🔍 Validating message schema..." []],
       inr message)
    else
      (l ++ [LogRecord DEBUG "🔍 Validating message schema..." [];
             LogRecord ERROR "❌ Invalid message schema: %s" [VDict message]],
       inl (ValueError "Invalid message format")).
Proof.
  unfold validate_input_message.
  cbv [mbind M_bind logger raise mret M_ret].
  destruct (validate_message_schema message); cbn [negb].
  - reflexivity.
  - rewrite <- app_assoc. reflexivity.
Qed.

Lemma compute_fundamental_signal_run (message : gmap string value) l :
  compute_fundamental_signal message l =
    match field_or_default message "eps" (Float.lit 20 (-1)) with
    | inl e => (l, inl e)
    | inr eps =>
      match field_or_default message "revenue_growth" (Float.lit 5 (-2)) with
      | inl e => (l, inl e)
      | inr rg =>
        match field_or_default message "debt_to_equity" (Float.lit 4 (-1)) with
        | inl e => (l, inl e)
        | inr dte =>
          let symbol := dict_get message "symbol" (VStr "UNKNOWN") in
          let score := Float.sub (Float.add eps rg) dte in
          (l ++ [LogRecord INFO "📘 Computing fundamental signal for %s"
                   [symbol];
                 LogRecord DEBUG "📈 Fundamental result for %s: %s"
                   [symbol; VDict (produced score)]],
           inr (produced score ∪ message))
        end
      end
    end.
Proof.
  unfold compute_fundamental_signal.
  cbv [mbind M_bind lift logger mret M_ret].
  rewrite !py_float_dict_get.
  destruct (field_or_default message "eps" _); [reflexivity|].
  destruct (field_or_default message "revenue_growth" _); [reflexivity|].
  destruct (field_or_default message "debt_to_equity" _); [reflexivity|].
  cbv zeta. rewrite <- app_assoc. reflexivity.
Qed.

Lemma produced_score (score : spec_float) :
  produced score !! "fundamental_score"
  = Some (VFloat (Float.round score 4)).
Proof.
  unfold produced. rewrite lookup_insert_ne by discriminate.
  apply lookup_insert_eq.
Qed.

Lemma produced_signal (score : spec_float) :
  produced score !! "fundamental_signal"
  = Some (VStr (if Float.gt score (Float.lit 15 (-1))
                then "BUY" else "HOLD")).
Proof. unfold produced. apply lookup_insert_eq. Qed.

Lemma produced_other (score : spec_float) (k : string) :
  k ≠ "fundamental_score" → k ≠ "fundamental_signal" →
  produced score !! k = None.
Proof.
  intros H1 H2. unfold produced.
  rewrite !lookup_insert_ne by congruence. apply lookup_empty.
Qed.

Lemma enriched_insert (score : spec_float) (message : gmap string value) :
  produced score ∪ message
  = <["fundamental_signal" :=
        VStr (if Float.gt score (Float.lit 15 (-1)) then "BUY" else "HOLD")]>
      (<["fundamental_score" := VFloat (Float.round score 4)]> message).
Proof.
  unfold produced.
  rewrite <- !insert_union_l, (left_id_L ∅ (∪)). reflexivity.
Qed.

Lemma field_or_default_absent (message : gmap string value) key default :
  message !! key = None → field_or_default message key default = inr default.
Proof. intros H. unfold field_or_default. rewrite H. reflexivity. Qed.

Lemma field_or_default_present (message : gmap string value) key default v :
  message !! key = Some v → field_or_default message key default = py_float v.
Proof. intros H. unfold field_or_default. rewrite H. reflexivity. Qed.

Lemma field_or_default_error (message : gmap string value) key default e :
  field_or_default message key default = inl e →
  ∃ v, message !! key = Some v ∧ py_float v = inl e.
Proof.
  unfold field_or_default. destruct (message !! key) as [v|]; [|discriminate].
  intros H. exists v. split; [reflexivity | exact H].
Qed.

Lemma compute_fundamental_signal_ok (message : gmap string value) l
  (eps rg dte : spec_float) :
  field_or_default message "eps" (Float.lit 20 (-1)) = inr eps →
  field_or_default message "revenue_growth" (Float.lit 5 (-2)) = inr rg →
  field_or_default message "debt_to_equity" (Float.lit 4 (-1)) = inr dte →
  compute_fundamental_signal message l =
    (l ++ [LogRecord INFO "📘 Computing fundamental signal for %s"
             [dict_get message "symbol" (VStr "UNKNOWN")];
           LogRecord DEBUG "📈 Fundamental result for %s: %s"
             [dict_get message "symbol" (VStr "UNKNOWN");
              VDict (produced (Float.sub (Float.add eps rg) dte))]],
     inr (produced (Float.sub (Float.add eps rg) dte) ∪ message)).
Proof.
  intros He Hr Hd. rewrite compute_fundamental_signal_run, He, Hr, Hd.
  reflexivity.
Qed.

Lemma enriched_score (score : spec_float) (message : gmap string value) :
  (produced score ∪ message) !! "fundamental_score"
  = Some (VFloat (Float.round score 4)).
Proof. apply lookup_union_Some_l, produced_score. Qed.

Lemma enriched_signal (score : spec_float) (message : gmap string value) :
  (produced score ∪ message) !! "fundamental_signal"
  = Some (VStr (if Float.gt score (Float.lit 15 (-1)) then "BUY" else "HOLD")).
Proof. apply lookup_union_Some_l, produced_signal. Qed.

Lemma enriched_other (score : spec_float) (message : gmap string value) k :
  k ≠ "fundamental_score" → k ≠ "fundamental_signal" →
  (produced score ∪ message) !! k = message !! k.
Proof.
  intros H1 H2. apply lookup_union_r, produced_other; assumption.
Qed.

Lemma field_or_default_agree (m1 m2 : gmap string value) key default :
  m1 !! key = m2 !! key →
  field_or_default m1 key default = field_or_default m2 key default.
Proof. intros H. unfold field_or_default. rewrite H. reflexivity. Qed.

Lemma lookup_agree_off_symbol (m1 m2 : gmap string value) (key : string) :
  delete "symbol" m1 = delete "symbol" m2 → key ≠ "symbol" →
  m1 !! key = m2 !! key.
Proof.
  intros H Hk.
  rewrite <- (lookup_delete_ne m1 "symbol" key) by congruence.
  rewrite <- (lookup_delete_ne m2 "symbol" key) by congruence.
  rewrite H. reflexivity.
Qed.

(** ** The claims *)

(** C1. For a record whose three numeric fields, each taken from the
    record when present and from the default 2.0, 0.05 or 0.4 otherwise,
    coerce to [eps], [rg] and [dte], the scorer returns a record, and the
    score behind both produced fields is [eps + rg - dte] with unit
    coefficients: [fundamental_score] is that sum rounded to 4 places and
    [fundamental_signal] is that sum compared with 1.5. *)
Theorem score_is_eps_plus_growth_minus_debt
  (message : gmap string value) (l : list log_record)
  (eps rg dte : spec_float) :
  field_or_default message "eps" (Float.lit 20 (-1)) = inr eps →
  field_or_default message "revenue_growth" (Float.lit 5 (-2)) = inr rg →
  field_or_default message "debt_to_equity" (Float.lit 4 (-1)) = inr dte →
  ∃ l' out,
    compute_fundamental_signal message l = (l', inr out) ∧
    let score := Float.sub (Float.add eps rg) dte in
    out !! "fundamental_score" = Some (VFloat (Float.round score 4)) ∧
    out !! "fundamental_signal"
    = Some (VStr (if Float.gt score (Float.lit 15 (-1))
                  then "BUY" else "HOLD")).
Proof.
  intros He Hr Hd. eexists _, _. split.
  - apply (compute_fundamental_signal_ok _ _ _ _ _ He Hr Hd).
  - split; [apply enriched_score | apply enriched_signal].
Qed.

(** C2. With the score [eps + rg - dte] of the record's fields, the
    signal is "BUY" exactly when the score is strictly greater than 1.5
    and "HOLD" otherwise (on a finite score, exactly when its value is
    above 3/2); at [eps = 0], [revenue_growth = 0],
    [debt_to_equity = -1.5] the score is exactly 1.5 and the signal is
    "HOLD". *)
Theorem signal_buy_iff_score_above_threshold
  (message : gmap string value) (l : list log_record)
  (eps rg dte : spec_float) :
  field_or_default message "eps" (Float.lit 20 (-1)) = inr eps →
  field_or_default message "revenue_growth" (Float.lit 5 (-2)) = inr rg →
  field_or_default message "debt_to_equity" (Float.lit 4 (-1)) = inr dte →
  ∃ l' out,
    compute_fundamental_signal message l = (l', inr out) ∧
    let score := Float.sub (Float.add eps rg) dte in
    (out !! "fundamental_signal" = Some (VStr "BUY")
     ↔ Float.gt score (Float.lit 15 (-1)) = true) ∧
    (out !! "fundamental_signal" = Some (VStr "HOLD")
     ↔ Float.gt score (Float.lit 15 (-1)) = false) ∧
    (∀ s m e, score = S754_finite s m e → Float.valid score = true →
       (out !! "fundamental_signal" = Some (VStr "BUY")
        ↔ (3 # 2 < Float.to_Q score)%Q)) ∧
    (eps = S754_zero false → rg = S754_zero false →
     dte = Float.lit (-15) (-1) →
     score = Float.lit 15 (-1) ∧
     out !! "fundamental_signal" = Some (VStr "HOLD")).
Proof.
  intros He Hr Hd. eexists _, _. split.
  - apply (compute_fundamental_signal_ok _ _ _ _ _ He Hr Hd).
  - cbv zeta. rewrite enriched_signal.
    split; [| split; [| split]].
    + destruct (Float.gt _ _); split; congruence.
    + destruct (Float.gt _ _); split; congruence.
    + intros s m e -> Hv. rewrite <- (gt_threshold_exact s m e Hv).
      destruct (Float.gt _ _); split; congruence.
    + intros -> -> ->.
      assert (E : Float.sub (Float.add (S754_zero false) (S754_zero false))
                    (Float.lit (-15) (-1)) = Float.lit 15 (-1))
        by (vm_compute; reflexivity).
      rewrite E. split; [reflexivity |].
      assert (G : Float.gt (Float.lit 15 (-1)) (Float.lit 15 (-1)) = false)
        by (vm_compute; reflexivity).
      rewrite G. reflexivity.
Qed.

(** C3. Whenever the scorer returns a record, that record is the input
    with [fundamental_score] and [fundamental_signal] set to the values
    produced from the input's own numbers: every other key of the input
    is there unchanged, the keys are those of the input and these two,
    and the two fields hold the produced values whatever the input had
    under those names. *)
Theorem output_is_input_plus_produced_fields
  (message : gmap string value) (l l' : list log_record)
  (out : gmap string value) :
  compute_fundamental_signal message l = (l', inr out) →
  ∃ eps rg dte : spec_float,
    field_or_default message "eps" (Float.lit 20 (-1)) = inr eps ∧
    field_or_default message "revenue_growth" (Float.lit 5 (-2)) = inr rg ∧
    field_or_default message "debt_to_equity" (Float.lit 4 (-1)) = inr dte ∧
    let score := Float.sub (Float.add eps rg) dte in
    let produced_score := VFloat (Float.round score 4) in
    let produced_signal :=
      VStr (if Float.gt score (Float.lit 15 (-1)) then "BUY" else "HOLD") in
    out = <["fundamental_signal" := produced_signal]>
            (<["fundamental_score" := produced_score]> message) ∧
    (∀ k, k ≠ "fundamental_score" → k ≠ "fundamental_signal" →
          out !! k = message !! k) ∧
    dom out = dom message ∪ {["fundamental_score"; "fundamental_signal"]} ∧
    out !! "fundamental_score" = Some produced_score ∧
    out !! "fundamental_signal" = Some produced_signal.
Proof.
  rewrite compute_fundamental_signal_run.
  destruct (field_or_default message "eps" _) as [|eps]; [discriminate|].
  destruct (field_or_default message "revenue_growth" _) as [|rg];
    [discriminate|].
  destruct (field_or_default message "debt_to_equity" _) as [|dte];
    [discriminate|].
  cbv zeta. intros [= _ <-].
  exists eps, rg, dte.
  split; [reflexivity |]. split; [reflexivity |]. split; [reflexivity |].
  split; [apply enriched_insert |].
  split; [intros k H1 H2; apply enriched_other; assumption |].
  split.
  - rewrite enriched_insert, !dom_insert_L.
    rewrite (comm_L (∪) (dom message)), (assoc_L (∪)).
    rewrite (comm_L (∪) {["fundamental_signal"]}). reflexivity.
  - split; [apply enriched_score | apply enriched_signal].
Qed.

(** C4. The validator fails exactly when the schema predicate returns
    false, with the invalid-input error and no record; when the predicate
    returns true it returns the record it was given. *)
Theorem validator_is_a_gate
  (message : gmap string value) (l : list log_record) :
  ((∃ e, snd (validate_input_message message l) = inl e)
   ↔ validate_message_schema message = false) ∧
  (validate_message_schema message = false →
   ∃ e, snd (validate_input_message message l) = inl e ∧ invalid_input e) ∧
  (validate_message_schema message = true →
   snd (validate_input_message message l) = inr message).
Proof.
  rewrite validate_input_message_run.
  destruct (validate_message_schema message); cbn [snd].
  - split; [split; [intros [e H]; discriminate | discriminate] |].
    split; [discriminate | reflexivity].
  - split; [split; [reflexivity | intros _; eexists; reflexivity] |].
    split; [| discriminate].
    intros _. eexists. split; reflexivity.
Qed.

(** C5. If one of [eps], [revenue_growth], [debt_to_equity] is present
    with a value that [float] cannot coerce, the scorer raises an
    invalid-numeric-field error, returns no record and logs nothing; an
    absent field is never coerced from the record: it is the default, and
    any failure of the scorer comes from a present field. *)
Theorem uncoercible_field_fails
  (message : gmap string value) (l : list log_record)
  (key : string) (v : value) (e : exn) :
  key ∈ numeric_keys →
  message !! key = Some v →
  py_float v = inl e →
  (∃ e', compute_fundamental_signal message l = (l, inl e')
         ∧ invalid_numeric_field e') ∧
  (∀ k default, message !! k = None →
     py_float (dict_get message k (VFloat default)) = inr default) ∧
  (∀ l' e', compute_fundamental_signal message l = (l', inl e') →
     ∃ k v', k ∈ numeric_keys ∧ message !! k = Some v' ∧ py_float v' = inl e').
Proof.
  intros Hkey Hv He. split; [| split].
  - assert (Hf : ∀ d, field_or_default message key d = inl e)
      by (intros d; rewrite (field_or_default_present _ _ _ _ Hv); exact He).
    rewrite compute_fundamental_signal_run.
    destruct (field_or_default message "eps" _) as [e1|eps] eqn:E1.
    { exists e1. split; [reflexivity |].
      destruct (field_or_default_error _ _ _ _ E1) as (v1 & _ & H1).
      exists v1. exact H1. }
    destruct (field_or_default message "revenue_growth" _) as [e2|rg] eqn:E2.
    { exists e2. split; [reflexivity |].
      destruct (field_or_default_error _ _ _ _ E2) as (v2 & _ & H2).
      exists v2. exact H2. }
    destruct (field_or_default message "debt_to_equity" _) as [e3|dte] eqn:E3.
    { exists e3. split; [reflexivity |].
      destruct (field_or_default_error _ _ _ _ E3) as (v3 & _ & H3).
      exists v3. exact H3. }
    exfalso. unfold numeric_keys in Hkey.
    rewrite !elem_of_cons, elem_of_nil in Hkey.
    destruct Hkey as [-> | [-> | [-> | []]]]; rewrite Hf in *; discriminate.
  - intros k default Hk. rewrite py_float_dict_get.
    apply field_or_default_absent, Hk.
  - intros l' e'. rewrite compute_fundamental_signal_run.
    destruct (field_or_default message "eps" _) as [e1|eps] eqn:E1.
    { intros [= _ <-].
      destruct (field_or_default_error _ _ _ _ E1) as (v1 & ? & ?).
      exists "eps", v1. unfold numeric_keys.
      rewrite !elem_of_cons. auto. }
    destruct (field_or_default message "revenue_growth" _) as [e2|rg] eqn:E2.
    { intros [= _ <-].
      destruct (field_or_default_error _ _ _ _ E2) as (v2 & ? & ?).
      exists "revenue_growth", v2. unfold numeric_keys.
      rewrite !elem_of_cons. auto. }
    destruct (field_or_default message "debt_to_equity" _) as [e3|dte] eqn:E3.
    { intros [= _ <-].
      destruct (field_or_default_error _ _ _ _ E3) as (v3 & ? & ?).
      exists "debt_to_equity", v3. unfold numeric_keys.
      rewrite !elem_of_cons. auto. }
    discriminate.
Qed.

(** C6. A record with none of [eps], [revenue_growth], [debt_to_equity]
    gets [fundamental_score = 1.65], from the defaults 2.0 + 0.05 - 0.4,
    and [fundamental_signal = "BUY"]. *)
Theorem defaults_score_1_65_buy
  (message : gmap string value) (l : list log_record) :
  message !! "eps" = None →
  message !! "revenue_growth" = None →
  message !! "debt_to_equity" = None →
  ∃ l' out,
    compute_fundamental_signal message l = (l', inr out) ∧
    out !! "fundamental_score" = Some (VFloat (Float.lit 165 (-2))) ∧
    out !! "fundamental_signal" = Some (VStr "BUY").
Proof.
  intros He Hr Hd. eexists _, _. split.
  - apply compute_fundamental_signal_ok;
      apply field_or_default_absent; assumption.
  - rewrite enriched_score, enriched_signal.
    assert (R : Float.round
                  (Float.sub (Float.add (Float.lit 20 (-1)) (Float.lit 5 (-2)))
                     (Float.lit 4 (-1))) 4 = Float.lit 165 (-2))
      by (vm_compute; reflexivity).
    assert (G : Float.gt
                  (Float.sub (Float.add (Float.lit 20 (-1)) (Float.lit 5 (-2)))
                     (Float.lit 4 (-1))) (Float.lit 15 (-1)) = true)
      by (vm_compute; reflexivity).
    rewrite R, G. split; reflexivity.
Qed.

(** C7. [fundamental_score] is the score [eps + rg - dte] rounded to 4
    decimal places, half to even: for a finite score, the double nearest
    to [q / 10^4] where [q] is the integer nearest to the score times
    [10^4], the even one on a tie; at [eps = 1.23456],
    [revenue_growth = 0], [debt_to_equity = 0] it is 1.2346. *)
Theorem score_rounded_to_4_places_half_even
  (message : gmap string value) (l : list log_record)
  (eps rg dte : spec_float) :
  field_or_default message "eps" (Float.lit 20 (-1)) = inr eps →
  field_or_default message "revenue_growth" (Float.lit 5 (-2)) = inr rg →
  field_or_default message "debt_to_equity" (Float.lit 4 (-1)) = inr dte →
  ∃ l' out r,
    compute_fundamental_signal message l = (l', inr out) ∧
    out !! "fundamental_score" = Some (VFloat r) ∧
    rounded_to_decimals (Float.sub (Float.add eps rg) dte) 4 r ∧
    (eps = Float.lit 123456 (-5) → rg = S754_zero false →
     dte = S754_zero false → r = Float.lit 12346 (-4)).
Proof.
  intros He Hr Hd. eexists _, _, _. split.
  - apply (compute_fundamental_signal_ok _ _ _ _ _ He Hr Hd).
  - split; [apply enriched_score |].
    split; [apply round_rounded_to_decimals; lia |].
    intros -> -> ->. vm_compute. reflexivity.
Qed.

(** C8. The scorer is deterministic: run twice on the same record,
    whatever the logger has received in between, it ends in the same
    exception or the same output record, and emits the same log
    records. *)
Theorem scorer_is_deterministic
  (message : gmap string value) (l1 l2 : list log_record) :
  snd (compute_fundamental_signal message l1)
  = snd (compute_fundamental_signal message l2) ∧
  ∃ emitted : list log_record,
    fst (compute_fundamental_signal message l1) = l1 ++ emitted ∧
    fst (compute_fundamental_signal message l2) = l2 ++ emitted.
Proof.
  rewrite !compute_fundamental_signal_run.
  destruct (field_or_default message "eps" _) as [|eps];
    [split; [reflexivity | exists []; rewrite !app_nil_r; split; reflexivity] |].
  destruct (field_or_default message "revenue_growth" _) as [|rg];
    [split; [reflexivity | exists []; rewrite !app_nil_r; split; reflexivity] |].
  destruct (field_or_default message "debt_to_equity" _) as [|dte];
    [split; [reflexivity | exists []; rewrite !app_nil_r; split; reflexivity] |].
  cbv zeta. cbn [fst snd]. split; [reflexivity |].
  eexists. split; reflexivity.
Qed.

(** C9. The produced fields do not depend on [symbol]: on two records
    that differ at most in the value or presence of [symbol], the scorer
    ends in the same exception, or returns two records with the same
    [fundamental_score] and [fundamental_signal], equal everywhere but at
    [symbol]. *)
Theorem produced_fields_ignore_symbol
  (m1 m2 : gmap string value) (l1 l2 : list log_record) :
  delete "symbol" m1 = delete "symbol" m2 →
  match snd (compute_fundamental_signal m1 l1),
        snd (compute_fundamental_signal m2 l2) with
  | inr out1, inr out2 =>
      out1 !! "fundamental_score" = out2 !! "fundamental_score" ∧
      out1 !! "fundamental_signal" = out2 !! "fundamental_signal" ∧
      delete "symbol" out1 = delete "symbol" out2
  | inl e1, inl e2 => e1 = e2
  | _, _ => False
  end.
Proof.
  intros H. rewrite !compute_fundamental_signal_run.
  rewrite (field_or_default_agree m1 m2 "eps"),
    (field_or_default_agree m1 m2 "revenue_growth"),
    (field_or_default_agree m1 m2 "debt_to_equity")
    by (apply lookup_agree_off_symbol; [exact H | discriminate]).
  destruct (field_or_default m2 "eps" _) as [|eps]; [reflexivity|].
  destruct (field_or_default m2 "revenue_growth" _) as [|rg]; [reflexivity|].
  destruct (field_or_default m2 "debt_to_equity" _) as [|dte]; [reflexivity|].
  cbv zeta. cbn [snd].
  rewrite !enriched_score, !enriched_signal.
  split; [reflexivity |]. split; [reflexivity |].
  rewrite !delete_union, H. reflexivity.
Qed.

(** C10. The signal is decided on the unrounded score: it is "BUY"
    exactly when [eps + rg - dte], not its rounding, is above 1.5; at
    [eps = 1.50004], [revenue_growth = 0], [debt_to_equity = 0] the output
    has [fundamental_score = 1.5], which is not above 1.5, together with
    [fundamental_signal = "BUY"]. *)
Theorem signal_decided_before_rounding
  (message : gmap string value) (l : list log_record)
  (eps rg dte : spec_float) :
  field_or_default message "eps" (Float.lit 20 (-1)) = inr eps →
  field_or_default message "revenue_growth" (Float.lit 5 (-2)) = inr rg →
  field_or_default message "debt_to_equity" (Float.lit 4 (-1)) = inr dte →
  ∃ l' out,
    compute_fundamental_signal message l = (l', inr out) ∧
    let score := Float.sub (Float.add eps rg) dte in
    out !! "fundamental_score" = Some (VFloat (Float.round score 4)) ∧
    (out !! "fundamental_signal" = Some (VStr "BUY")
     ↔ Float.gt score (Float.lit 15 (-1)) = true) ∧
    (eps = Float.lit 150004 (-5) → rg = S754_zero false →
     dte = S754_zero false →
     out !! "fundamental_score" = Some (VFloat (Float.lit 15 (-1))) ∧
     out !! "fundamental_signal" = Some (VStr "BUY") ∧
     Float.gt (Float.round score 4) (Float.lit 15 (-1)) = false).
Proof.
  intros He Hr Hd. eexists _, _. split.
  - apply (compute_fundamental_signal_ok _ _ _ _ _ He Hr Hd).
  - cbv zeta. rewrite enriched_score, enriched_signal.
    split; [reflexivity |]. split.
    + destruct (Float.gt _ _); split; congruence.
    + intros -> -> ->.
      assert (R : Float.round
                    (Float.sub (Float.add (Float.lit 150004 (-5))
                                  (S754_zero false)) (S754_zero false)) 4
                  = Float.lit 15 (-1)) by (vm_compute; reflexivity).
      assert (G : Float.gt
                    (Float.sub (Float.add (Float.lit 150004 (-5))
                                  (S754_zero false)) (S754_zero false))
                    (Float.lit 15 (-1)) = true) by (vm_compute; reflexivity).
      rewrite R, G. split; [reflexivity |]. split; [reflexivity |].
      vm_compute. reflexivity.
Qed.

(** ** Further properties of the two functions *)

Lemma add_nan_l (y : spec_float) : Float.add S754_nan y = S754_nan.
Proof. reflexivity. Qed.

Lemma add_nan_r (x : spec_float) : Float.add x S754_nan = S754_nan.
Proof. destruct x; reflexivity. Qed.

Lemma sub_nan_l (y : spec_float) : Float.sub S754_nan y = S754_nan.
Proof. reflexivity. Qed.

Lemma sub_nan_r (x : spec_float) : Float.sub x S754_nan = S754_nan.
Proof. destruct x; reflexivity. Qed.

Lemma threshold_double :
  Float.lit 15 (-1) = S754_finite false 6755399441055744 (-52).
Proof. vm_compute. reflexivity. Qed.

Lemma field_or_default_enriched (score : spec_float)
  (message : gmap string value) key default :
  key ≠ "fundamental_score" → key ≠ "fundamental_signal" →
  field_or_default (produced score ∪ message) key default
  = field_or_default message key default.
Proof.
  intros H1 H2. apply field_or_default_agree, enriched_other; assumption.
Qed.

Lemma is_number_coerces (v : value) :
  is_number v = true → ∃ f, py_float v = inr f.
Proof.
  destruct v as [| b | z | f | | |]; cbn [is_number py_float];
    try discriminate.
  - intros _. destruct b; vm_compute; eexists; reflexivity.
  - destruct (Float.of_int z) as [f|]; [eexists; reflexivity | discriminate].
  - intros _. eexists. reflexivity.
Qed.

(** X1. Scoring is idempotent: the scorer run on a record it returned
    returns that record again. *)
Theorem scorer_is_idempotent
  (message out : gmap string value) (l l' l2 : list log_record) :
  compute_fundamental_signal message l = (l', inr out) →
  snd (compute_fundamental_signal out l2) = inr out.
Proof.
  rewrite compute_fundamental_signal_run.
  destruct (field_or_default message "eps" _) as [|eps] eqn:He;
    [discriminate|].
  destruct (field_or_default message "revenue_growth" _) as [|rg] eqn:Hr;
    [discriminate|].
  destruct (field_or_default message "debt_to_equity" _) as [|dte] eqn:Hd;
    [discriminate|].
  cbv zeta. intros [= _ <-].
  rewrite compute_fundamental_signal_run.
  rewrite !field_or_default_enriched by discriminate.
  rewrite He, Hr, Hd. cbv zeta. cbn [snd].
  rewrite (assoc_L (∪)), (idemp_L (∪)). reflexivity.
Qed.

(** X2. The fields are coerced in the order [eps], [revenue_growth],
    [debt_to_equity], and the first one that cannot be coerced decides
    the exception, whatever the later fields hold. *)
Theorem first_uncoercible_field_decides
  (message : gmap string value) (l : list log_record) (v : value) (e : exn) :
  py_float v = inl e →
  (message !! "eps" = Some v →
   compute_fundamental_signal message l = (l, inl e)) ∧
  (∀ eps, field_or_default message "eps" (Float.lit 20 (-1)) = inr eps →
     message !! "revenue_growth" = Some v →
     compute_fundamental_signal message l = (l, inl e)) ∧
  (∀ eps rg,
     field_or_default message "eps" (Float.lit 20 (-1)) = inr eps →
     field_or_default message "revenue_growth" (Float.lit 5 (-2)) = inr rg →
     message !! "debt_to_equity" = Some v →
     compute_fundamental_signal message l = (l, inl e)).
Proof.
  intros He. split; [| split].
  - intros Hv. rewrite compute_fundamental_signal_run.
    rewrite (field_or_default_present _ _ _ _ Hv), He. reflexivity.
  - intros eps Heps Hv. rewrite compute_fundamental_signal_run, Heps.
    rewrite (field_or_default_present _ _ _ _ Hv), He. reflexivity.
  - intros eps rg Heps Hrg Hv.
    rewrite compute_fundamental_signal_run, Heps, Hrg.
    rewrite (field_or_default_present _ _ _ _ Hv), He. reflexivity.
Qed.

(** X3. The produced fields depend on the record only through the three
    coerced numbers: two records whose fields coerce to the same
    [eps], [rg] and [dte], whether written as floats, integers or
    strings, get the same [fundamental_score] and
    [fundamental_signal]. *)
Theorem produced_fields_depend_on_coerced_numbers
  (m1 m2 : gmap string value) (l1 l2 : list log_record)
  (eps rg dte : spec_float) :
  field_or_default m1 "eps" (Float.lit 20 (-1)) = inr eps →
  field_or_default m1 "revenue_growth" (Float.lit 5 (-2)) = inr rg →
  field_or_default m1 "debt_to_equity" (Float.lit 4 (-1)) = inr dte →
  field_or_default m2 "eps" (Float.lit 20 (-1)) = inr eps →
  field_or_default m2 "revenue_growth" (Float.lit 5 (-2)) = inr rg →
  field_or_default m2 "debt_to_equity" (Float.lit 4 (-1)) = inr dte →
  ∃ out1 out2,
    snd (compute_fundamental_signal m1 l1) = inr out1 ∧
    snd (compute_fundamental_signal m2 l2) = inr out2 ∧
    out1 !! "fundamental_score" = out2 !! "fundamental_score" ∧
    out1 !! "fundamental_signal" = out2 !! "fundamental_signal".
Proof.
  intros He1 Hr1 Hd1 He2 Hr2 Hd2.
  rewrite (compute_fundamental_signal_ok m1 l1 _ _ _ He1 Hr1 Hd1).
  rewrite (compute_fundamental_signal_ok m2 l2 _ _ _ He2 Hr2 Hd2).
  eexists _, _. split; [reflexivity |]. split; [reflexivity |].
  rewrite !enriched_score, !enriched_signal. split; reflexivity.
Qed.

(** X4. A NaN in any of the three numbers is not an error: the scorer
    returns, [fundamental_score] is NaN and the signal is "HOLD". *)
Theorem nan_field_gives_nan_score_and_hold
  (message : gmap string value) (l : list log_record)
  (eps rg dte : spec_float) :
  field_or_default message "eps" (Float.lit 20 (-1)) = inr eps →
  field_or_default message "revenue_growth" (Float.lit 5 (-2)) = inr rg →
  field_or_default message "debt_to_equity" (Float.lit 4 (-1)) = inr dte →
  eps = S754_nan ∨ rg = S754_nan ∨ dte = S754_nan →
  ∃ l' out,
    compute_fundamental_signal message l = (l', inr out) ∧
    out !! "fundamental_score" = Some (VFloat S754_nan) ∧
    out !! "fundamental_signal" = Some (VStr "HOLD").
Proof.
  intros He Hr Hd Hnan. eexists _, _. split.
  - apply (compute_fundamental_signal_ok _ _ _ _ _ He Hr Hd).
  - assert (E : Float.sub (Float.add eps rg) dte = S754_nan).
    { destruct Hnan as [-> | [-> | ->]].
      - rewrite add_nan_l. apply sub_nan_l.
      - rewrite add_nan_r. apply sub_nan_l.
      - apply sub_nan_r. }
    rewrite enriched_score, enriched_signal, E, threshold_double.
    split; reflexivity.
Qed.

(** X5. The sign of the score settles the signal at the extremes: a
    score that is a zero, negative or minus infinity gives "HOLD"; plus
    infinity gives "BUY", and [fundamental_score] is then plus infinity
    itself. *)
Theorem signal_at_the_extremes
  (message : gmap string value) (l : list log_record)
  (eps rg dte : spec_float) :
  field_or_default message "eps" (Float.lit 20 (-1)) = inr eps →
  field_or_default message "revenue_growth" (Float.lit 5 (-2)) = inr rg →
  field_or_default message "debt_to_equity" (Float.lit 4 (-1)) = inr dte →
  ∃ l' out,
    compute_fundamental_signal message l = (l', inr out) ∧
    let score := Float.sub (Float.add eps rg) dte in
    ((∃ s, score = S754_zero s) ∨ (∃ m e, score = S754_finite true m e)
     ∨ score = S754_infinity true →
     out !! "fundamental_signal" = Some (VStr "HOLD")) ∧
    (score = S754_infinity false →
     out !! "fundamental_signal" = Some (VStr "BUY") ∧
     out !! "fundamental_score" = Some (VFloat (S754_infinity false))).
Proof.
  intros He Hr Hd. eexists _, _. split.
  - apply (compute_fundamental_signal_ok _ _ _ _ _ He Hr Hd).
  - cbv zeta. rewrite enriched_score, enriched_signal, threshold_double.
    split.
    + intros [[s ->] | [(m & e & ->) | ->]]; reflexivity.
    + intros ->. split; reflexivity.
Qed.

(** X6. A record whose numeric fields, where present, are JSON numbers
    (floats, booleans, integers within the range of the doubles) is
    always scored: the scorer raises nothing. *)
Theorem numbers_are_always_scored
  (message : gmap string value) (l : list log_record) :
  (∀ key v, key ∈ numeric_keys → message !! key = Some v →
            is_number v = true) →
  ∃ l' out, compute_fundamental_signal message l = (l', inr out).
Proof.
  intros Hnum.
  assert (Hf : ∀ key d, key ∈ numeric_keys →
                        ∃ f, field_or_default message key d = inr f).
  { intros key d Hkey. unfold field_or_default.
    destruct (message !! key) as [v|] eqn:Hv.
    - apply is_number_coerces, (Hnum key v Hkey Hv).
    - eexists. reflexivity. }
  destruct (Hf "eps" (Float.lit 20 (-1))) as [eps He];
    [unfold numeric_keys; rewrite !elem_of_cons; auto |].
  destruct (Hf "revenue_growth" (Float.lit 5 (-2))) as [rg Hr];
    [unfold numeric_keys; rewrite !elem_of_cons; auto |].
  destruct (Hf "debt_to_equity" (Float.lit 4 (-1))) as [dte Hd];
    [unfold numeric_keys; rewrite !elem_of_cons; auto |].
  eexists _, _. apply (compute_fundamental_signal_ok _ _ _ _ _ He Hr Hd).
Qed.

(** X8. The validator keeps the log it was given and appends to it: one
    DEBUG record first, and an ERROR record, which carries the offending
    message, exactly when it rejects. *)
Theorem validator_logs_the_rejected_message
  (message : gmap string value) (l : list log_record) :
  ∃ emitted,
    fst (validate_input_message message l) = l ++ emitted ∧
    (levelname <$> emitted) !! 0%nat = Some DEBUG ∧
    (LogRecord ERROR "❌ Invalid message schema: %s" [VDict message]
       ∈ emitted
     ↔ validate_message_schema message = false) ∧
    (∀ r, r ∈ emitted → levelname r = ERROR → args r = [VDict message]).
Proof.
  rewrite validate_input_message_run.
  destruct (validate_message_schema message); eexists; cbn [fst];
    (split; [reflexivity |]); (split; [reflexivity |]); split.
  - rewrite list_elem_of_singleton. split; discriminate.
  - intros r Hr. apply list_elem_of_singleton in Hr. subst r. discriminate.
  - split; [reflexivity |]. intros _. apply list_elem_of_further.
    apply list_elem_of_here.
  - intros r Hr. rewrite !elem_of_cons, elem_of_nil in Hr.
    destruct Hr as [-> | [-> | []]]; [discriminate | reflexivity].
Qed.

Lemma scaled_above_threshold (x : Q) (q : Z) :
  (3 # 2 < x)%Q → rounds_half_even x 4 q → 15000 <= q.
Proof.
  intros Hx [Hq _]. change ((10 # 1) ^ 4)%Q with (10000 # 1)%Q in Hq.
  apply Qabs_minus_int_le in Hq.
  destruct x as [a b]. unfold Qlt in Hx. unfold Qmult in Hq.
  cbn [Qnum Qden] in Hx, Hq. rewrite Pos.mul_1_r in Hq. nia.
Qed.

Lemma scaled_not_above_threshold (x : Q) (q : Z) :
  ¬ (3 # 2 < x)%Q → rounds_half_even x 4 q → q <= 15000.
Proof.
  intros Hx [Hq _]. change ((10 # 1) ^ 4)%Q with (10000 # 1)%Q in Hq.
  apply Qabs_minus_int_le in Hq.
  destruct x as [a b]. unfold Qlt in Hx. unfold Qmult in Hq.
  cbn [Qnum Qden] in Hx, Hq. rewrite Pos.mul_1_r in Hq. nia.
Qed.

(** X9. The signal is monotone in the score: of two records with finite
    scores, if the one with the lower (or equal) score gets "BUY", so
    does the other. *)
Theorem higher_score_keeps_buy
  (m1 m2 : gmap string value) (l1 l2 : list log_record)
  (eps1 rg1 dte1 eps2 rg2 dte2 : spec_float)
  (s1 s2 : bool) (n1 n2 : positive) (x1 x2 : Z) :
  field_or_default m1 "eps" (Float.lit 20 (-1)) = inr eps1 →
  field_or_default m1 "revenue_growth" (Float.lit 5 (-2)) = inr rg1 →
  field_or_default m1 "debt_to_equity" (Float.lit 4 (-1)) = inr dte1 →
  field_or_default m2 "eps" (Float.lit 20 (-1)) = inr eps2 →
  field_or_default m2 "revenue_growth" (Float.lit 5 (-2)) = inr rg2 →
  field_or_default m2 "debt_to_equity" (Float.lit 4 (-1)) = inr dte2 →
  Float.sub (Float.add eps1 rg1) dte1 = S754_finite s1 n1 x1 →
  Float.sub (Float.add eps2 rg2) dte2 = S754_finite s2 n2 x2 →
  Float.valid (S754_finite s1 n1 x1) = true →
  Float.valid (S754_finite s2 n2 x2) = true →
  (Float.to_Q (S754_finite s1 n1 x1) <= Float.to_Q (S754_finite s2 n2 x2))%Q →
  ∃ out1 out2,
    snd (compute_fundamental_signal m1 l1) = inr out1 ∧
    snd (compute_fundamental_signal m2 l2) = inr out2 ∧
    (out1 !! "fundamental_signal" = Some (VStr "BUY") →
     out2 !! "fundamental_signal" = Some (VStr "BUY")).
Proof.
  intros He1 Hr1 Hd1 He2 Hr2 Hd2 Hs1 Hs2 Hv1 Hv2 Hle.
  rewrite (compute_fundamental_signal_ok m1 l1 _ _ _ He1 Hr1 Hd1).
  rewrite (compute_fundamental_signal_ok m2 l2 _ _ _ He2 Hr2 Hd2).
  eexists _, _. split; [reflexivity |]. split; [reflexivity |].
  rewrite !enriched_signal, Hs1, Hs2.
  pose proof (gt_threshold_exact s1 n1 x1 Hv1) as G1.
  pose proof (gt_threshold_exact s2 n2 x2 Hv2) as G2.
  destruct (Float.gt (S754_finite s1 n1 x1) _); [| discriminate].
  intros _.
  assert (H2 : Float.gt (S754_finite s2 n2 x2) (Float.lit 15 (-1)) = true).
  { apply G2. eapply Qlt_le_trans; [apply G1; reflexivity | exact Hle]. }
  rewrite H2. reflexivity.
Qed.

(** X10. Rounding never carries the score across the threshold: with a
    finite score, [fundamental_score] is the double nearest to
    [q / 10^4] for an integer [q] that is at least 15000 when the signal
    is "BUY" and at most 15000 when it is "HOLD". *)
Theorem rounded_score_stays_on_its_side
  (message : gmap string value) (l : list log_record)
  (eps rg dte : spec_float) (s : bool) (n : positive) (x : Z) :
  field_or_default message "eps" (Float.lit 20 (-1)) = inr eps →
  field_or_default message "revenue_growth" (Float.lit 5 (-2)) = inr rg →
  field_or_default message "debt_to_equity" (Float.lit 4 (-1)) = inr dte →
  Float.sub (Float.add eps rg) dte = S754_finite s n x →
  Float.valid (S754_finite s n x) = true →
  ∃ l' out q,
    compute_fundamental_signal message l = (l', inr out) ∧
    rounds_half_even (Float.to_Q (S754_finite s n x)) 4 q ∧
    out !! "fundamental_score"
    = Some (VFloat (Float.of_ratio s (Z.abs q) (10 ^ 4))) ∧
    (out !! "fundamental_signal" = Some (VStr "BUY") → 15000 <= q) ∧
    (out !! "fundamental_signal" = Some (VStr "HOLD") → q <= 15000).
Proof.
  intros He Hr Hd Hs Hv.
  pose proof (round_rounded_to_decimals (S754_finite s n x) 4 ltac:(lia))
    as (q & Hq & Hround).
  eexists _, _, q. split.
  - apply (compute_fundamental_signal_ok _ _ _ _ _ He Hr Hd).
  - split; [exact Hq |].
    rewrite enriched_score, enriched_signal, Hs.
    split; [rewrite Hround; reflexivity |].
    pose proof (gt_threshold_exact s n x Hv) as G.
    destruct (Float.gt (S754_finite s n x) _).
    + split; [intros _ | discriminate].
      apply (scaled_above_threshold _ _ (proj1 G eq_refl) Hq).
    + split; [discriminate | intros _].
      apply (scaled_not_above_threshold (Float.to_Q (S754_finite s n x)) q);
        [| exact Hq].
      intros H. apply G in H. discriminate.
Qed.

End Processor.

(** ** The claims on the example records *)

Lemma score_is_eps_plus_growth_minus_debt_acme :
  ∃ l' out,
    compute_fundamental_signal Numeral.str_to_float acme [] = (l', inr out) ∧
    out !! "fundamental_score" = Some (VFloat (Float.lit 29 (-1))) ∧
    out !! "fundamental_signal" = Some (VStr "BUY").
Proof.
  pose proof (score_is_eps_plus_growth_minus_debt Numeral.str_to_float acme []
                (Float.lit 30 (-1)) (Float.lit 1 (-1)) (Float.lit 2 (-1))
                eq_refl eq_refl eq_refl) as W.
  cbv zeta in W. destruct W as (l' & out & H & Hs & Hg).
  exists l', out. split; [exact H |].
  split; [rewrite Hs | rewrite Hg]; vm_compute; reflexivity.
Defined.

Lemma signal_buy_iff_score_above_threshold_at_threshold :
  ∃ l' out,
    compute_fundamental_signal Numeral.str_to_float at_threshold []
    = (l', inr out) ∧
    out !! "fundamental_signal" = Some (VStr "HOLD").
Proof.
  pose proof (signal_buy_iff_score_above_threshold Numeral.str_to_float
                at_threshold [] (S754_zero false) (S754_zero false)
                (Float.lit (-15) (-1)) eq_refl eq_refl eq_refl) as W.
  cbv zeta in W. destruct W as (l' & out & H & _ & _ & _ & Hex).
  exists l', out. split; [exact H |].
  exact (proj2 (Hex eq_refl eq_refl eq_refl)).
Defined.

Lemma output_is_input_plus_produced_fields_stale :
  stale !! "fundamental_signal" = Some (VStr "BUY") ∧
  stale_rescored !! "fundamental_signal" = Some (VStr "HOLD") ∧
  stale_rescored !! "fundamental_score"
  = Some (VFloat (Float.lit (-1) (-1))) ∧
  stale_rescored !! "symbol" = stale !! "symbol" ∧
  dom stale_rescored = dom stale.
Proof.
  destruct (output_is_input_plus_produced_fields Numeral.str_to_float stale []
              (fst (compute_fundamental_signal Numeral.str_to_float stale []))
              stale_rescored)
    as (eps & rg & dte & He & Hr & Hd & W).
  { vm_compute. reflexivity. }
  cbv zeta in W. destruct W as (_ & Hframe & _ & Hs & Hg).
  vm_compute in He, Hr, Hd.
  injection He as <-. injection Hr as <-. injection Hd as <-.
  split; [vm_compute; reflexivity |].
  split; [rewrite Hg; vm_compute; reflexivity |].
  split; [rewrite Hs; vm_compute; reflexivity |].
  split; [apply Hframe; discriminate | vm_compute; reflexivity].
Defined.

Lemma uncoercible_field_fails_not_a_number :
  ∃ e',
    compute_fundamental_signal Numeral.str_to_float not_a_number []
    = ([], inl e')
    ∧ invalid_numeric_field Numeral.str_to_float e'.
Proof.
  apply (uncoercible_field_fails Numeral.str_to_float not_a_number [] "eps"
           (VStr "n/a")
           (ValueError "could not convert string to float: 'n/a'")).
  - apply list_elem_of_here.
  - vm_compute. reflexivity.
  - vm_compute. reflexivity.
Defined.

Lemma defaults_score_1_65_buy_bare :
  ∃ l' out,
    compute_fundamental_signal Numeral.str_to_float bare [] = (l', inr out) ∧
    out !! "fundamental_score" = Some (VFloat (Float.lit 165 (-2))) ∧
    out !! "fundamental_signal" = Some (VStr "BUY").
Proof.
  apply (defaults_score_1_65_buy Numeral.str_to_float bare []);
    vm_compute; reflexivity.
Defined.

Lemma score_rounded_to_4_places_half_even_five_decimals :
  ∃ l' out,
    compute_fundamental_signal Numeral.str_to_float five_decimals []
    = (l', inr out) ∧
    out !! "fundamental_score" = Some (VFloat (Float.lit 12346 (-4))).
Proof.
  destruct (score_rounded_to_4_places_half_even Numeral.str_to_float
              five_decimals [] (Float.lit 123456 (-5)) (S754_zero false)
              (S754_zero false))
    as (l' & out & r & H & Hs & _ & Hex); [vm_compute; reflexivity ..|].
  exists l', out. split; [exact H |].
  rewrite Hs, (Hex eq_refl eq_refl eq_refl). reflexivity.
Defined.

Lemma produced_fields_ignore_symbol_acme :
  match snd (compute_fundamental_signal Numeral.str_to_float acme []),
        snd (compute_fundamental_signal Numeral.str_to_float anonymous []) with
  | inr out1, inr out2 =>
      out1 !! "fundamental_score" = out2 !! "fundamental_score" ∧
      out1 !! "fundamental_signal" = out2 !! "fundamental_signal" ∧
      delete "symbol" out1 = delete "symbol" out2
  | inl e1, inl e2 => e1 = e2
  | _, _ => False
  end.
Proof.
  apply (produced_fields_ignore_symbol Numeral.str_to_float acme anonymous).
  vm_compute. reflexivity.
Defined.

Lemma signal_decided_before_rounding_above_threshold :
  ∃ l' out,
    compute_fundamental_signal Numeral.str_to_float above_threshold []
    = (l', inr out) ∧
    out !! "fundamental_score" = Some (VFloat (Float.lit 15 (-1))) ∧
    out !! "fundamental_signal" = Some (VStr "BUY").
Proof.
  pose proof (signal_decided_before_rounding Numeral.str_to_float
                above_threshold [] (Float.lit 150004 (-5)) (S754_zero false)
                (S754_zero false) eq_refl eq_refl eq_refl) as W.
  cbv zeta in W. destruct W as (l' & out & H & _ & _ & Hex).
  exists l', out. split; [exact H |].
  destruct (Hex eq_refl eq_refl eq_refl) as (Hs & Hg & _).
  split; assumption.
Defined.

(** The gate on the example schema: a record without [symbol] is turned
    away, [acme] goes through unchanged. *)
Example validator_gate_on_examples :
  snd (validate_input_message has_symbol anonymous [])
  = inl (ValueError "Invalid message format") ∧
  snd (validate_input_message has_symbol acme []) = inr acme.
Proof. split; vm_compute; reflexivity. Qed.

(** ** The further properties on the example records *)

Lemma scorer_is_idempotent_acme :
  snd (compute_fundamental_signal Numeral.str_to_float acme_enriched [])
  = inr acme_enriched.
Proof.
  apply (scorer_is_idempotent Numeral.str_to_float acme acme_enriched []
           (fst (compute_fundamental_signal Numeral.str_to_float acme []))).
  vm_compute. reflexivity.
Defined.

Lemma first_uncoercible_field_decides_two_bad_fields :
  compute_fundamental_signal Numeral.str_to_float two_bad_fields []
  = ([], inl (ValueError "could not convert string to float: 'n/a'")).
Proof.
  apply (first_uncoercible_field_decides Numeral.str_to_float two_bad_fields
           [] (VStr "n/a")
           (ValueError "could not convert string to float: 'n/a'")).
  - vm_compute. reflexivity.
  - vm_compute. reflexivity.
Defined.

Lemma produced_fields_depend_on_coerced_numbers_acme :
  ∃ out1 out2,
    snd (compute_fundamental_signal Numeral.str_to_float acme []) = inr out1 ∧
    snd (compute_fundamental_signal Numeral.str_to_float acme_as_text [])
    = inr out2 ∧
    out1 !! "fundamental_score" = out2 !! "fundamental_score" ∧
    out1 !! "fundamental_signal" = out2 !! "fundamental_signal".
Proof.
  apply (produced_fields_depend_on_coerced_numbers Numeral.str_to_float acme
           acme_as_text [] [] (Float.lit 30 (-1)) (Float.lit 1 (-1))
           (Float.lit 2 (-1)));
    vm_compute; reflexivity.
Defined.

Lemma nan_field_gives_nan_score_and_hold_eps_not_reported :
  ∃ l' out,
    compute_fundamental_signal Numeral.str_to_float eps_not_reported []
    = (l', inr out) ∧
    out !! "fundamental_score" = Some (VFloat S754_nan) ∧
    out !! "fundamental_signal" = Some (VStr "HOLD").
Proof.
  apply (nan_field_gives_nan_score_and_hold Numeral.str_to_float
           eps_not_reported [] S754_nan (Float.lit 5 (-2)) (Float.lit 4 (-1)));
    [vm_compute; reflexivity .. | left; reflexivity].
Defined.

Lemma signal_at_the_extremes_loss_making :
  ∃ l' out,
    compute_fundamental_signal Numeral.str_to_float loss_making []
    = (l', inr out) ∧
    out !! "fundamental_signal" = Some (VStr "HOLD").
Proof.
  pose proof (signal_at_the_extremes Numeral.str_to_float loss_making []
                (Float.lit (-1) 0) (Float.lit 5 (-2)) (Float.lit 25 (-1))
                eq_refl eq_refl eq_refl) as W.
  cbv zeta in W. destruct W as (l' & out & H & Hhold & _).
  exists l', out. split; [exact H |].
  apply Hhold. right. left.
  exists 7768709357214106%positive, (-51). vm_compute. reflexivity.
Defined.

Lemma numbers_are_always_scored_acme :
  ∃ l' out,
    compute_fundamental_signal Numeral.str_to_float acme [] = (l', inr out).
Proof.
  apply (numbers_are_always_scored Numeral.str_to_float acme []).
  intros key v Hkey. unfold numeric_keys in Hkey.
  rewrite !elem_of_cons, elem_of_nil in Hkey.
  assert (E1 : acme !! "eps" = Some (VFloat (Float.lit 30 (-1))))
    by (vm_compute; reflexivity).
  assert (E2 : acme !! "revenue_growth" = Some (VFloat (Float.lit 1 (-1))))
    by (vm_compute; reflexivity).
  assert (E3 : acme !! "debt_to_equity" = Some (VFloat (Float.lit 2 (-1))))
    by (vm_compute; reflexivity).
  destruct Hkey as [-> | [-> | [-> | []]]]; intros Hv;
    rewrite ?E1, ?E2, ?E3 in Hv; injection Hv as <-; reflexivity.
Defined.

Lemma higher_score_keeps_buy_above_threshold_acme :
  ∃ out1 out2,
    snd (compute_fundamental_signal Numeral.str_to_float above_threshold [])
    = inr out1 ∧
    snd (compute_fundamental_signal Numeral.str_to_float acme []) = inr out2 ∧
    (out1 !! "fundamental_signal" = Some (VStr "BUY") →
     out2 !! "fundamental_signal" = Some (VStr "BUY")).
Proof.
  apply (higher_score_keeps_buy Numeral.str_to_float above_threshold acme
           [] [] (Float.lit 150004 (-5)) (S754_zero false) (S754_zero false)
           (Float.lit 30 (-1)) (Float.lit 1 (-1)) (Float.lit 2 (-1))
           false false 6755579585040839 6530219459687219 (-52) (-51));
    try (vm_compute; reflexivity).
  vm_compute. discriminate.
Defined.

Lemma rounded_score_stays_on_its_side_above_threshold :
  ∃ l' out q,
    compute_fundamental_signal Numeral.str_to_float above_threshold []
    = (l', inr out) ∧
    rounds_half_even
      (Float.to_Q (S754_finite false 6755579585040839 (-52))) 4 q ∧
    out !! "fundamental_score"
    = Some (VFloat (Float.of_ratio false (Z.abs q) (10 ^ 4))) ∧
    (out !! "fundamental_signal" = Some (VStr "BUY") → 15000 <= q) ∧
    (out !! "fundamental_signal" = Some (VStr "HOLD") → q <= 15000).
Proof.
  apply (rounded_score_stays_on_its_side Numeral.str_to_float above_threshold
           [] (Float.lit 150004 (-5)) (S754_zero false) (S754_zero false));
    vm_compute; reflexivity.
Defined.
